(** * Library-view configuration of jellyfin-web (experimental app)

    A shallow embedding of the pure functions of [utils/items] and of the
    derived values computed in [components/library/ItemsView.tsx], with the
    properties the specification states about them.

    JavaScript values are modelled as follows.
    - An optional property ([p?: T]) is an [option]: [None] is [undefined].
    - A value of type [T | null | undefined] is a [nullable T].
    - A string enum member is known by its constructor; where the code
      converts one to text, the text is given by an explicit function.
    - Arrays are lists; [Array.prototype.includes] is [Array_includes].
    - Strings are [string]; [String.prototype.includes] is [String_includes]. *)

From Stdlib Require Import Bool List String Ascii ZArith Lia.
Import ListNotations.
Local Open Scope string_scope.
Local Open Scope bool_scope.

(* ================================================================== *)
(** ** JavaScript primitives used by the code *)
(* ================================================================== *)

Module Js.

(** [T | null | undefined]. *)
Inductive nullable (A : Type) : Type :=
| undefined : nullable A
| null : nullable A
| val : A -> nullable A.
Arguments undefined {A}.
Arguments null {A}.
Arguments val {A} _.

(** Truthiness of a [boolean | undefined], as tested by [c ? a : b],
    [if (c)] and [!!c]. *)
Definition truthy (c : option bool) : bool :=
  match c with
  | Some b => b
  | None => false
  end.

(** [xs.includes(x)] on an array. *)
Definition Array_includes {A : Type} (eqb : A -> A -> bool)
           (xs : list A) (x : A) : bool :=
  existsb (eqb x) xs.

(** [xs?.includes(x)]: [undefined] when [xs] is. *)
Definition opt_includes {A : Type} (eqb : A -> A -> bool)
           (xs : option (list A)) (x : A) : option bool :=
  option_map (fun l => Array_includes eqb l x) xs.

(** [o?.p], for a property [p] that is itself optional. *)
Definition opt_get {A B : Type} (o : option A) (p : A -> option B) : option B :=
  match o with
  | Some a => p a
  | None => None
  end.

(** [needle] is an initial segment of [s]. *)
Fixpoint starts_with (needle s : string) : bool :=
  match needle, s with
  | EmptyString, _ => true
  | String _ _, EmptyString => false
  | String a needle', String b s' => Ascii.eqb a b && starts_with needle' s'
  end.

(** [s.includes(needle)] on a string: [needle] occurs somewhere in [s]. *)
Fixpoint String_includes (s needle : string) : bool :=
  starts_with needle s
  || match s with
     | EmptyString => false
     | String _ s' => String_includes s' needle
     end.

(** The text a template literal substitutes for a
    [string | null | undefined]. *)
Definition interpolate (v : nullable string) : string :=
  match v with
  | undefined => "undefined"
  | null => "null"
  | val s => s
  end.

End Js.

(* ================================================================== *)
(** ** Enumerations *)
(* ================================================================== *)

(** Modelled from the spec: the declaration of [LibraryTab]
    ([types/libraryTab]) is not among the sources.  The view categories
    are those the specification names; the code compares a category only
    against [Songs], [Albums], [Episodes], [Artists] and [Networks], so
    [Generic] stands for any category that is none of the named ones. *)
Module LibraryTab.
Inductive t : Type :=
| Albums | Artists | Episodes | Movies | Networks | Songs | Generic.

Definition eqb (a b : t) : bool :=
  match a, b with
  | Albums, Albums | Artists, Artists | Episodes, Episodes
  | Movies, Movies | Networks, Networks | Songs, Songs
  | Generic, Generic => true
  | _, _ => false
  end.
End LibraryTab.

(** The image roles the code distinguishes (an enumeration of the client
    library). *)
Module ImageType.
Inductive t : Type := Primary | Banner | Disc | Logo | Thumb.

Definition eqb (a b : t) : bool :=
  match a, b with
  | Primary, Primary | Banner, Banner | Disc, Disc
  | Logo, Logo | Thumb, Thumb => true
  | _, _ => false
  end.
End ImageType.

(** The enumerations of [types/library], whose declarations are not among
    the sources, with the members the code names. *)
Module ViewMode.
Inductive t : Type := GridView | ListView.
End ViewMode.

Module SortOrder.
Inductive t : Type := Ascending | Descending.
End SortOrder.

(** The item fields the field selection can request (an enumeration of
    the client library). *)
Module ItemFields.
Inductive t : Type :=
| BasicSyncInfo | MediaSourceCount | PrimaryImageAspectRatio | DateCreated.
End ItemFields.

Module VideoBasicFilter.
Inductive t : Type := IsSD | IsHD | Is4K | Is3D.

Definition eqb (a b : t) : bool :=
  match a, b with
  | IsSD, IsSD | IsHD, IsHD | Is4K, Is4K | Is3D, Is3D => true
  | _, _ => false
  end.
End VideoBasicFilter.

Module FeatureFilters.
Inductive t : Type :=
| HasSubtitles | HasTrailer | HasSpecialFeature | HasThemeSong | HasThemeVideo.

Definition eqb (a b : t) : bool :=
  match a, b with
  | HasSubtitles, HasSubtitles | HasTrailer, HasTrailer
  | HasSpecialFeature, HasSpecialFeature | HasThemeSong, HasThemeSong
  | HasThemeVideo, HasThemeVideo => true
  | _, _ => false
  end.
End FeatureFilters.

Module EpisodeFilter.
Inductive t : Type := ParentIndexNumber | IsMissing | IsUnaired.

Definition eqb (a b : t) : bool :=
  match a, b with
  | ParentIndexNumber, ParentIndexNumber | IsMissing, IsMissing
  | IsUnaired, IsUnaired => true
  | _, _ => false
  end.
End EpisodeFilter.

(** A sort-field identifier is a member of a string enumeration of the
    client library: at run time, the text of its name. *)
Module ItemSortBy.
Definition SortName : string := "SortName".
End ItemSortBy.

(* ================================================================== *)
(** ** The settings record *)
(* ================================================================== *)

(** The filter selection, with the properties the code reads: every
    property is optional and, when present, holds an array. *)
Module Filters.
Record t : Type := mk {
  Features : option (list FeatureFilters.t);
  Genres : option (list string);
  OfficialRatings : option (list string);
  EpisodeFilter : option (list EpisodeFilter.t);
  Status : option (list string);
  SeriesStatus : option (list string);
  StudioIds : option (list string);
  Tags : option (list string);
  VideoBasicFilter : option (list VideoBasicFilter.t);
  VideoTypes : option (list string);
  Years : option (list Z)
}.

(** The object [{}]: no property set. *)
Definition empty : t :=
  mk None None None None None None None None None None None.
End Filters.

Definition ParentId : Type := Js.nullable string.

(** [SortBy] holds one string: the default factory stores
    [ItemSortBy.SortName] itself there. *)
Record LibraryViewSettings : Type := {
  ShowTitle : bool;
  ShowYear : bool;
  ViewMode : ViewMode.t;
  ImageType : ImageType.t;
  CardLayout : bool;
  SortBy : string;
  SortOrder : SortOrder.t;
  StartIndex : Z;
  Filters : option Filters.t;
  Alphabet : Js.nullable string
}.

(* ================================================================== *)
(** ** Filter extraction ([utils/items]) *)
(* ================================================================== *)

Record VideoBasicQuery : Type := {
  isHd : option bool;
  is4K : option bool;
  is3D : option bool
}.

(** [libraryViewSettings.Filters?.VideoBasicFilter?.includes(x)] *)
Definition videoBasicIncludes (s : LibraryViewSettings)
           (x : VideoBasicFilter.t) : option bool :=
  Js.opt_includes VideoBasicFilter.eqb
    (Js.opt_get (Filters s) Filters.VideoBasicFilter) x.

(** [isHd] starts out undefined and is assigned by two successive,
    independent [if] statements. *)
Definition getVideoBasicFilter (s : LibraryViewSettings) : VideoBasicQuery :=
  let isHd0 : option bool := None in
  let isHd1 :=
    if Js.truthy (videoBasicIncludes s VideoBasicFilter.IsHD)
    then Some true else isHd0 in
  let isHd2 :=
    if Js.truthy (videoBasicIncludes s VideoBasicFilter.IsSD)
    then Some false else isHd1 in
  {| isHd := isHd2;
     is4K := if Js.truthy (videoBasicIncludes s VideoBasicFilter.Is4K)
             then Some true else None;
     is3D := if Js.truthy (videoBasicIncludes s VideoBasicFilter.Is3D)
             then Some true else None |}.

Record FeatureQuery : Type := {
  hasSubtitles : option bool;
  hasTrailer : option bool;
  hasSpecialFeature : option bool;
  hasThemeSong : option bool;
  hasThemeVideo : option bool
}.

(** [libraryViewSettings.Filters?.Features?.includes(x)] *)
Definition featuresIncludes (s : LibraryViewSettings)
           (x : FeatureFilters.t) : option bool :=
  Js.opt_includes FeatureFilters.eqb
    (Js.opt_get (Filters s) Filters.Features) x.

Definition getFeatureFilters (s : LibraryViewSettings) : FeatureQuery :=
  {| hasSubtitles :=
       if Js.truthy (featuresIncludes s FeatureFilters.HasSubtitles)
       then Some true else None;
     hasTrailer :=
       if Js.truthy (featuresIncludes s FeatureFilters.HasTrailer)
       then Some true else None;
     hasSpecialFeature :=
       if Js.truthy (featuresIncludes s FeatureFilters.HasSpecialFeature)
       then Some true else None;
     hasThemeSong :=
       if Js.truthy (featuresIncludes s FeatureFilters.HasThemeSong)
       then Some true else None;
     hasThemeVideo :=
       if Js.truthy (featuresIncludes s FeatureFilters.HasThemeVideo)
       then Some true else None |}.

Record EpisodeQuery : Type := {
  parentIndexNumber : option Z;
  isMissing : option bool;
  isUnaired : option bool
}.

(** [libraryViewSettings.Filters?.EpisodeFilter?.includes(x)] *)
Definition episodeIncludes (s : LibraryViewSettings)
           (x : EpisodeFilter.t) : option bool :=
  Js.opt_includes EpisodeFilter.eqb
    (Js.opt_get (Filters s) Filters.EpisodeFilter) x.

Definition getEpisodeFilter (viewType : LibraryTab.t)
           (s : LibraryViewSettings) : EpisodeQuery :=
  {| parentIndexNumber :=
       if Js.truthy (episodeIncludes s EpisodeFilter.ParentIndexNumber)
       then Some 0%Z else None;
     isMissing :=
       if LibraryTab.eqb viewType LibraryTab.Episodes
       then Some (Js.truthy (episodeIncludes s EpisodeFilter.IsMissing))
       else None;
     isUnaired :=
       if Js.truthy (episodeIncludes s EpisodeFilter.IsUnaired)
       then Some true else None |}.

(* ================================================================== *)
(** ** Query building ([utils/items]) *)
(* ================================================================== *)

(** [itemFields] starts empty and grows by [push]. *)
Definition getItemFieldsEnum (viewType : LibraryTab.t)
           (s : LibraryViewSettings) : list ItemFields.t :=
  let itemFields0 : list ItemFields.t := [] in
  let itemFields1 :=
    if negb (LibraryTab.eqb viewType LibraryTab.Networks)
    then (itemFields0 ++ [ItemFields.BasicSyncInfo; ItemFields.MediaSourceCount])%list
    else itemFields0 in
  let itemFields2 :=
    if ImageType.eqb (ImageType s) ImageType.Primary
    then (itemFields1 ++ [ItemFields.PrimaryImageAspectRatio])%list
    else itemFields1 in
  let itemFields3 :=
    if LibraryTab.eqb viewType LibraryTab.Networks
    then (itemFields2 ++ [ItemFields.DateCreated;
                         ItemFields.PrimaryImageAspectRatio])%list
    else itemFields2 in
  itemFields3.

Record FieldsQuery : Type := { fields : list ItemFields.t }.

Definition getFieldsQuery (viewType : LibraryTab.t)
           (s : LibraryViewSettings) : FieldsQuery :=
  {| fields := getItemFieldsEnum viewType s |}.

Record AlphaPickerQuery : Type := {
  nameLessThan : option string;
  nameStartsWith : option string
}.

(** [alphabetValue] is [undefined] for a [null] alphabet and the alphabet
    itself otherwise; [=== '#'] holds of the one-character string only. *)
Definition getAlphaPickerQuery (s : LibraryViewSettings) : AlphaPickerQuery :=
  let alphabetValue : option string :=
    match Alphabet s with
    | Js.null => None
    | Js.undefined => None
    | Js.val a => Some a
    end in
  let isHash :=
    match alphabetValue with
    | Some a => String.eqb a "#"
    | None => false
    end in
  {| nameLessThan := if isHash then Some "A" else None;
     nameStartsWith := if isHash then None else alphabetValue |}.

(* ================================================================== *)
(** ** Default settings ([utils/items]) *)
(* ================================================================== *)

Definition getDefaultLibraryViewSettings (viewType : LibraryTab.t)
  : LibraryViewSettings :=
  {| ShowTitle := true;
     ShowYear := false;
     ViewMode := if LibraryTab.eqb viewType LibraryTab.Songs
                 then ViewMode.ListView else ViewMode.GridView;
     ImageType := if LibraryTab.eqb viewType LibraryTab.Networks
                  then ImageType.Thumb else ImageType.Primary;
     CardLayout := false;
     SortBy := ItemSortBy.SortName;
     SortOrder := SortOrder.Ascending;
     StartIndex := 0%Z;
     Filters := None;
     Alphabet := Js.undefined |}.

(* ================================================================== *)
(** ** Settings key ([utils/items]) *)
(* ================================================================== *)

Section SettingsKey.

(** The text of each member of [LibraryTab], whose declaration is not
    among the sources: a parameter of the key. *)
Variable tabText : LibraryTab.t -> string.

(** The template literal [`${viewType} - ${parentId}`]. *)
Definition getSettingsKey (viewType : LibraryTab.t) (parentId : ParentId)
  : string :=
  tabText viewType ++ " - " ++ Js.interpolate parentId.

End SettingsKey.

(** One assignment of texts to the members: each member's name, in
    lower case. *)
Definition tabName (c : LibraryTab.t) : string :=
  match c with
  | LibraryTab.Albums => "albums"
  | LibraryTab.Artists => "artists"
  | LibraryTab.Episodes => "episodes"
  | LibraryTab.Movies => "movies"
  | LibraryTab.Networks => "networks"
  | LibraryTab.Songs => "songs"
  | LibraryTab.Generic => "generic"
  end.

(* ================================================================== *)
(** ** Card options ([ItemsView.tsx]) *)
(* ================================================================== *)

Record CardOptions : Type := {
  shape : string;
  showTitle : bool;
  showYear : bool;
  cardLayout : bool;
  centerText : bool;
  context : option string;
  coverImage : bool;
  preferThumb : option bool;
  preferDisc : option bool;
  preferLogo : option bool;
  overlayPlayButton : bool;
  overlayMoreButton : bool;
  overlayText : bool;
  showParentTitle : option bool;
  lines : option Z
}.

(** Assignments to single properties of the options object. *)
Definition set_showParentTitle (v : bool) (o : CardOptions) : CardOptions :=
  {| shape := shape o; showTitle := showTitle o; showYear := showYear o;
     cardLayout := cardLayout o; centerText := centerText o;
     context := context o; coverImage := coverImage o;
     preferThumb := preferThumb o; preferDisc := preferDisc o;
     preferLogo := preferLogo o; overlayPlayButton := overlayPlayButton o;
     overlayMoreButton := overlayMoreButton o; overlayText := overlayText o;
     showParentTitle := Some v; lines := lines o |}.

Definition set_showYear (v : bool) (o : CardOptions) : CardOptions :=
  {| shape := shape o; showTitle := showTitle o; showYear := v;
     cardLayout := cardLayout o; centerText := centerText o;
     context := context o; coverImage := coverImage o;
     preferThumb := preferThumb o; preferDisc := preferDisc o;
     preferLogo := preferLogo o; overlayPlayButton := overlayPlayButton o;
     overlayMoreButton := overlayMoreButton o; overlayText := overlayText o;
     showParentTitle := showParentTitle o; lines := lines o |}.

Definition set_lines (v : Z) (o : CardOptions) : CardOptions :=
  {| shape := shape o; showTitle := showTitle o; showYear := showYear o;
     cardLayout := cardLayout o; centerText := centerText o;
     context := context o; coverImage := coverImage o;
     preferThumb := preferThumb o; preferDisc := preferDisc o;
     preferLogo := preferLogo o; overlayPlayButton := overlayPlayButton o;
     overlayMoreButton := overlayMoreButton o; overlayText := overlayText o;
     showParentTitle := showParentTitle o; lines := Some v |}.

(** The local variables [shape], [preferThumb], [preferDisc] and
    [preferLogo] after the chain of tests on the image type. *)
Definition imageShape (i : ImageType.t)
  : string * option bool * option bool * option bool :=
  if ImageType.eqb i ImageType.Banner then ("banner", None, None, None)
  else if ImageType.eqb i ImageType.Disc then ("square", None, Some true, None)
  else if ImageType.eqb i ImageType.Logo then ("backdrop", None, None, Some true)
  else if ImageType.eqb i ImageType.Thumb then ("backdrop", Some true, None, None)
  else ("auto", None, None, None).

(** [getCardOptions], with the values it closes over as arguments. *)
Definition getCardOptions (viewType : LibraryTab.t)
           (collectionType : option string) (s : LibraryViewSettings)
  : CardOptions :=
  let lines0 : Z := if ShowTitle s then 2%Z else 0%Z in
  let '(shape, preferThumb, preferDisc, preferLogo) := imageShape (ImageType s) in
  let cardOptions0 :=
    {| shape := shape;
       showTitle := ShowTitle s;
       showYear := ShowYear s;
       cardLayout := CardLayout s;
       centerText := true;
       context := collectionType;
       coverImage := true;
       preferThumb := preferThumb;
       preferDisc := preferDisc;
       preferLogo := preferLogo;
       overlayPlayButton := false;
       overlayMoreButton := true;
       overlayText := negb (ShowTitle s);
       showParentTitle := None;
       lines := None |} in
  let '(cardOptions1, lines1) :=
    if LibraryTab.eqb viewType LibraryTab.Songs
       || LibraryTab.eqb viewType LibraryTab.Albums
       || LibraryTab.eqb viewType LibraryTab.Episodes
    then (set_showParentTitle (ShowTitle s) cardOptions0, lines0)
    else if LibraryTab.eqb viewType LibraryTab.Artists
    then (set_showYear false cardOptions0, 1%Z)
    else (cardOptions0, lines0) in
  set_lines lines1 cardOptions1.

(* ================================================================== *)
(** ** Derived flags ([ItemsView.tsx]) *)
(* ================================================================== *)

(** What a property of the filter selection can hold. *)
Inductive FilterValue : Type :=
| FeatureArray (l : list FeatureFilters.t)
| EpisodeArray (l : list EpisodeFilter.t)
| VideoBasicArray (l : list VideoBasicFilter.t)
| StringArray (l : list string)
| NumberArray (l : list Z).

(** [Object.values(filters)].  A property that is not set contributes
    [undefined] here; the test below treats it as it treats a property
    that is missing. *)
Definition Object_values (f : Filters.t) : list (option FilterValue) :=
  [ option_map FeatureArray (Filters.Features f);
    option_map StringArray (Filters.Genres f);
    option_map StringArray (Filters.OfficialRatings f);
    option_map EpisodeArray (Filters.EpisodeFilter f);
    option_map StringArray (Filters.Status f);
    option_map StringArray (Filters.SeriesStatus f);
    option_map StringArray (Filters.StudioIds f);
    option_map StringArray (Filters.Tags f);
    option_map VideoBasicArray (Filters.VideoBasicFilter f);
    option_map StringArray (Filters.VideoTypes f);
    option_map NumberArray (Filters.Years f) ].

(** [!!filter]: [undefined] is falsy; an array is an object, and every
    object is truthy, whatever its length. *)
Definition truthy_value (v : option FilterValue) : bool :=
  match v with
  | None => false
  | Some (FeatureArray _) => true
  | Some (EpisodeArray _) => true
  | Some (VideoBasicArray _) => true
  | Some (StringArray _) => true
  | Some (NumberArray _) => true
  end.

(** [Object.values(libraryViewSettings.Filters ?? {}).some(f => !!f)] *)
Definition hasFilters (s : LibraryViewSettings) : bool :=
  existsb truthy_value
    (Object_values (match Filters s with
                    | Some f => f
                    | None => Filters.empty
                    end)).

(** [libraryViewSettings.SortBy.includes(ItemSortBy.SortName)], on the
    string that [SortBy] holds. *)
Definition hasSortName (s : LibraryViewSettings) : bool :=
  Js.String_includes (SortBy s) ItemSortBy.SortName.

(* ================================================================== *)
(** ** Vocabulary of the statements *)
(* ================================================================== *)

(** The flag [x] is among the selected video-basic flags of [s]. *)
Definition videoBasicSelected (s : LibraryViewSettings)
           (x : VideoBasicFilter.t) : Prop :=
  exists f l, Filters s = Some f
              /\ Filters.VideoBasicFilter f = Some l /\ In x l.

(** The flag [x] is among the selected episode flags of [s]. *)
Definition episodeSelected (s : LibraryViewSettings)
           (x : EpisodeFilter.t) : Prop :=
  exists f l, Filters s = Some f
              /\ Filters.EpisodeFilter f = Some l /\ In x l.

(** Number of elements of a collection held by the filter selection. *)
Definition FilterValue_length (v : FilterValue) : nat :=
  match v with
  | FeatureArray l => List.length l
  | EpisodeArray l => List.length l
  | VideoBasicArray l => List.length l
  | StringArray l => List.length l
  | NumberArray l => List.length l
  end.

(** Some entry of the filter selection of [s] is a non-empty collection. *)
Definition someNonEmptyEntry (s : LibraryViewSettings) : Prop :=
  exists f v, Filters s = Some f
              /\ In (Some v) (Object_values f)
              /\ (0 < FilterValue_length v)%nat.

(** The text of a sequence of sort-field identifiers: the identifiers
    separated by commas; a single identifier is its own text. *)
Definition sortFieldsText (sortFields : list string) : string :=
  String.concat "," sortFields.

(** [needle] occurs in [s]. *)
Definition occursIn (needle s : string) : Prop :=
  exists pre post, s = pre ++ needle ++ post.

(** Settings used as concrete inputs. *)
Definition settingsWith (sortBy : string) (filters : option Filters.t)
           (alphabet : Js.nullable string) : LibraryViewSettings :=
  {| ShowTitle := true; ShowYear := false;
     ViewMode := ViewMode.GridView; ImageType := ImageType.Primary;
     CardLayout := false; SortBy := sortBy;
     SortOrder := SortOrder.Ascending; StartIndex := 0%Z;
     Filters := filters; Alphabet := alphabet |}.

Definition videoBasicOnly (l : list VideoBasicFilter.t) : Filters.t :=
  Filters.mk None None None None None None None None (Some l) None None.

Definition genresOnly (l : list string) : Filters.t :=
  Filters.mk None (Some l) None None None None None None None None None.

(** A selection holding both the HD and the SD flag. *)
Definition settingsHdAndSd : LibraryViewSettings :=
  settingsWith ItemSortBy.SortName
    (Some (videoBasicOnly [VideoBasicFilter.IsHD; VideoBasicFilter.IsSD]))
    Js.undefined.

(** A selection whose only entry is an empty genre collection. *)
Definition settingsEmptyGenres : LibraryViewSettings :=
  settingsWith ItemSortBy.SortName (Some (genresOnly [])) Js.undefined.

(** Settings sorted by the series name. *)
Definition settingsBySeriesName : LibraryViewSettings :=
  settingsWith (sortFieldsText ["SeriesSortName"]) None Js.undefined.

(* ================================================================== *)
(** ** Limit and filter queries ([utils/items]) *)
(* ================================================================== *)

Record LimitQuery : Type := { limit : option Z }.

(** Modelled from the spec: the page-size preference
    ([userSettings.libraryPageSize], not among the sources) yields an
    integer or nothing; the value read is an argument here.
    [x || undefined] keeps [x] unless it is falsy: [undefined] or [0]. *)
Definition getLimitQuery (libraryPageSize : option Z) : LimitQuery :=
  {| limit := match libraryPageSize with
              | Some n => if Z.eqb n 0 then None else Some n
              | None => None
              end |}.

(** The values held by the properties of a query object. *)
Inductive QueryValue : Type :=
| QUndefined
| QBool (b : bool)
| QNumber (n : Z)
| QStrings (l : list string)
| QNumbers (l : list Z).

Definition ofBool (v : option bool) : QueryValue :=
  match v with Some b => QBool b | None => QUndefined end.

Definition ofNumber (v : option Z) : QueryValue :=
  match v with Some n => QNumber n | None => QUndefined end.

Definition ofStrings (v : option (list string)) : QueryValue :=
  match v with Some l => QStrings l | None => QUndefined end.

Definition ofNumbers (v : option (list Z)) : QueryValue :=
  match v with Some l => QNumbers l | None => QUndefined end.

(** An object: its properties in the order they were created. *)
Definition Object : Type := list (string * QueryValue).

(** [o[k] = v]: an existing property keeps its place, a new one comes
    last. *)
Fixpoint Object_set (k : string) (v : QueryValue) (o : Object) : Object :=
  match o with
  | [] => [(k, v)]
  | (k', v') :: o' =>
      if String.eqb k k' then (k, v) :: o'
      else (k', v') :: Object_set k v o'
  end.

(** The spread [...source] inside an object literal built so far as
    [target]: every property of [source] is set, in order. *)
Definition Object_spread (target source : Object) : Object :=
  fold_left (fun o kv => Object_set (fst kv) (snd kv) o) source target.

Fixpoint Object_get (k : string) (o : Object) : option QueryValue :=
  match o with
  | [] => None
  | (k', v) :: o' => if String.eqb k k' then Some v else Object_get k o'
  end.

Definition Object_keys (o : Object) : list string := map fst o.

(** The object literals returned by the three extractors. *)
Definition FeatureQuery_object (q : FeatureQuery) : Object :=
  [ ("hasSubtitles", ofBool (hasSubtitles q));
    ("hasTrailer", ofBool (hasTrailer q));
    ("hasSpecialFeature", ofBool (hasSpecialFeature q));
    ("hasThemeSong", ofBool (hasThemeSong q));
    ("hasThemeVideo", ofBool (hasThemeVideo q)) ].

Definition EpisodeQuery_object (q : EpisodeQuery) : Object :=
  [ ("parentIndexNumber", ofNumber (parentIndexNumber q));
    ("isMissing", ofBool (isMissing q));
    ("isUnaired", ofBool (isUnaired q)) ].

Definition VideoBasicQuery_object (q : VideoBasicQuery) : Object :=
  [ ("isHd", ofBool (isHd q));
    ("is4K", ofBool (is4K q));
    ("is3D", ofBool (is3D q)) ].

(** The free-form selections, as the object literal lists them. *)
Definition freeFormEntries (s : LibraryViewSettings) : Object :=
  [ ("seriesStatus", ofStrings (Js.opt_get (Filters s) Filters.SeriesStatus));
    ("videoTypes", ofStrings (Js.opt_get (Filters s) Filters.VideoTypes));
    ("filters", ofStrings (Js.opt_get (Filters s) Filters.Status));
    ("genres", ofStrings (Js.opt_get (Filters s) Filters.Genres));
    ("officialRatings",
     ofStrings (Js.opt_get (Filters s) Filters.OfficialRatings));
    ("tags", ofStrings (Js.opt_get (Filters s) Filters.Tags));
    ("years", ofNumbers (Js.opt_get (Filters s) Filters.Years));
    ("studioIds", ofStrings (Js.opt_get (Filters s) Filters.StudioIds)) ].

(** The object literal of [getFiltersQuery]: three spreads, then eight
    properties, each set in turn. *)
Definition getFiltersQuery (viewType : LibraryTab.t)
           (s : LibraryViewSettings) : Object :=
  let o0 : Object := [] in
  let o1 := Object_spread o0 (FeatureQuery_object (getFeatureFilters s)) in
  let o2 :=
    Object_spread o1 (EpisodeQuery_object (getEpisodeFilter viewType s)) in
  let o3 := Object_spread o2 (VideoBasicQuery_object (getVideoBasicFilter s)) in
  Object_spread o3 (freeFormEntries s).

(* ================================================================== *)
(** ** Items markup ([ItemsView.tsx]) *)
(* ================================================================== *)

(** The character that delimits attribute values. *)
Definition dquote : string :=
  String (Ascii.Ascii false true false false false true false false) "".

(** The block shown when there is nothing to list, around the two
    translated messages. *)
Definition noItemsBlock (nothingHere message : string) : string :=
  "<div class=" ++ dquote ++ "noItemsMessage centerMessage" ++ dquote ++ ">"
  ++ ("<h1>" ++ nothingHere ++ "</h1>")
  ++ ("<p>" ++ message ++ "</p>")
  ++ "</div>".

Section ItemsHtml.

(** The items and the collaborators that render and translate: the list
    and card builders and the string lookup are not among the sources. *)
Variable Item : Type.
Variable getListViewHtml : list Item -> option string -> string.
Variable getCardsHtml : list Item -> CardOptions -> string.
Variable translate : string -> string.

(** The result of the items query, both properties optional. *)
Record ItemsResult : Type := {
  Items : option (list Item);
  TotalRecordCount : option Z
}.

(** [itemsResult?.Items ?? []] *)
Definition itemsOf (itemsResult : option ItemsResult) : list Item :=
  match Js.opt_get itemsResult Items with
  | Some l => l
  | None => []
  end.

(** [!itemsResult?.Items?.length]: the length is [undefined] or a number,
    and both [undefined] and [0] are falsy. *)
Definition noLength (itemsResult : option ItemsResult) : bool :=
  match Js.opt_get itemsResult Items with
  | Some l => Nat.eqb (List.length l) 0
  | None => true
  end.

(** [itemsResult?.TotalRecordCount ?? 0] *)
Definition totalRecordCount (itemsResult : option ItemsResult) : Z :=
  match Js.opt_get itemsResult TotalRecordCount with
  | Some n => n
  | None => 0%Z
  end.

(** [getItemsHtml], with the values it closes over as arguments. *)
Definition getItemsHtml (viewType : LibraryTab.t)
           (collectionType : option string) (noItemsMessage : string)
           (s : LibraryViewSettings) (itemsResult : option ItemsResult)
  : string :=
  let html0 :=
    match ViewMode s with
    | ViewMode.ListView =>
        getListViewHtml (itemsOf itemsResult) collectionType
    | ViewMode.GridView =>
        getCardsHtml (itemsOf itemsResult)
                     (getCardOptions viewType collectionType s)
    end in
  if noLength itemsResult
  then html0 ++ noItemsBlock (translate "MessageNothingHere")
                             (translate noItemsMessage)
  else html0.

End ItemsHtml.

Arguments Items {Item} _.
Arguments TotalRecordCount {Item} _.

(** The property of the feature query that belongs to a flag. *)
Definition featureField (x : FeatureFilters.t) (q : FeatureQuery)
  : option bool :=
  match x with
  | FeatureFilters.HasSubtitles => hasSubtitles q
  | FeatureFilters.HasTrailer => hasTrailer q
  | FeatureFilters.HasSpecialFeature => hasSpecialFeature q
  | FeatureFilters.HasThemeSong => hasThemeSong q
  | FeatureFilters.HasThemeVideo => hasThemeVideo q
  end.

Definition ItemFields_eq_dec (a b : ItemFields.t) : {a = b} + {a <> b}.
Proof. decide equality. Defined.

(** Two selections of video-basic flags, equal as sets. *)
Definition settingsHd4K : LibraryViewSettings :=
  settingsWith ItemSortBy.SortName
    (Some (videoBasicOnly [VideoBasicFilter.IsHD; VideoBasicFilter.Is4K]))
    Js.undefined.

Definition settings4KHdHd : LibraryViewSettings :=
  settingsWith ItemSortBy.SortName
    (Some (videoBasicOnly [VideoBasicFilter.Is4K; VideoBasicFilter.IsHD;
                           VideoBasicFilter.IsHD]))
    Js.null.

(** The flag [x] is among the selected feature flags of [s]. *)
Definition featureSelected (s : LibraryViewSettings)
           (x : FeatureFilters.t) : Prop :=
  exists f l, Filters s = Some f
              /\ Filters.Features f = Some l /\ In x l.

(* ================================================================== *)
(** ** Equality tests and array membership *)
(* ================================================================== *)

Lemma LibraryTab_eqb_eq (a b : LibraryTab.t) :
  LibraryTab.eqb a b = true <-> a = b.
Proof. destruct a, b; simpl; split; congruence. Qed.

Lemma LibraryTab_eqb_neq (a b : LibraryTab.t) :
  LibraryTab.eqb a b = false <-> a <> b.
Proof. destruct a, b; simpl; split; congruence. Qed.

Lemma ImageType_eqb_eq (a b : ImageType.t) :
  ImageType.eqb a b = true <-> a = b.
Proof. destruct a, b; simpl; split; congruence. Qed.

Lemma VideoBasicFilter_eqb_eq (a b : VideoBasicFilter.t) :
  VideoBasicFilter.eqb a b = true <-> a = b.
Proof. destruct a, b; simpl; split; congruence. Qed.

Lemma EpisodeFilter_eqb_eq (a b : EpisodeFilter.t) :
  EpisodeFilter.eqb a b = true <-> a = b.
Proof. destruct a, b; simpl; split; congruence. Qed.

Lemma Array_includes_In (A : Type) (eqb : A -> A -> bool)
      (eqb_eq : forall a b, eqb a b = true <-> a = b)
      (xs : list A) (x : A) :
  Js.Array_includes eqb xs x = true <-> In x xs.
Proof.
  unfold Js.Array_includes. rewrite existsb_exists. split.
  - intros [y [Hin Heq]]. apply eqb_eq in Heq. now subst y.
  - intro Hin. exists x. split; [exact Hin | now apply eqb_eq].
Qed.

Lemma videoBasicIncludes_selected (s : LibraryViewSettings)
      (x : VideoBasicFilter.t) :
  Js.truthy (videoBasicIncludes s x) = true <-> videoBasicSelected s x.
Proof.
  unfold videoBasicIncludes, videoBasicSelected, Js.opt_includes, Js.opt_get.
  destruct (Filters s) as [f|]; simpl.
  - destruct (Filters.VideoBasicFilter f) as [l|] eqn:Hl; simpl.
    + rewrite (Array_includes_In _ _ VideoBasicFilter_eqb_eq). split.
      * intro Hin. now exists f, l.
      * intros (f' & l' & Hf & Hl' & Hin).
        injection Hf as <-. rewrite Hl in Hl'. now injection Hl' as <-.
    + split; [discriminate|].
      intros (f' & l' & Hf & Hl' & _). injection Hf as <-. congruence.
  - split; [discriminate|]. intros (f' & l' & Hf & _). discriminate.
Qed.

Lemma videoBasicIncludes_not_selected (s : LibraryViewSettings)
      (x : VideoBasicFilter.t) :
  Js.truthy (videoBasicIncludes s x) = false <-> ~ videoBasicSelected s x.
Proof.
  rewrite <- videoBasicIncludes_selected.
  destruct (Js.truthy (videoBasicIncludes s x)); split; congruence.
Qed.

Lemma episodeIncludes_selected (s : LibraryViewSettings)
      (x : EpisodeFilter.t) :
  Js.truthy (episodeIncludes s x) = true <-> episodeSelected s x.
Proof.
  unfold episodeIncludes, episodeSelected, Js.opt_includes, Js.opt_get.
  destruct (Filters s) as [f|]; simpl.
  - destruct (Filters.EpisodeFilter f) as [l|] eqn:Hl; simpl.
    + rewrite (Array_includes_In _ _ EpisodeFilter_eqb_eq). split.
      * intro Hin. now exists f, l.
      * intros (f' & l' & Hf & Hl' & Hin).
        injection Hf as <-. rewrite Hl in Hl'. now injection Hl' as <-.
    + split; [discriminate|].
      intros (f' & l' & Hf & Hl' & _). injection Hf as <-. congruence.
  - split; [discriminate|]. intros (f' & l' & Hf & _). discriminate.
Qed.

Lemma episodeIncludes_not_selected (s : LibraryViewSettings)
      (x : EpisodeFilter.t) :
  Js.truthy (episodeIncludes s x) = false <-> ~ episodeSelected s x.
Proof.
  rewrite <- episodeIncludes_selected.
  destruct (Js.truthy (episodeIncludes s x)); split; congruence.
Qed.

(* ================================================================== *)
(** ** Video-basic filter *)
(* ================================================================== *)

Section VideoBasic.

Import VideoBasicFilter.

Variable s : LibraryViewSettings.

Lemma isHd_sd :
  videoBasicSelected s IsSD -> isHd (getVideoBasicFilter s) = Some false.
Proof.
  intro H. apply videoBasicIncludes_selected in H.
  unfold getVideoBasicFilter. simpl. now rewrite H.
Qed.

Lemma isHd_hd_only :
  videoBasicSelected s IsHD -> ~ videoBasicSelected s IsSD ->
  isHd (getVideoBasicFilter s) = Some true.
Proof.
  intros Hhd Hsd. apply videoBasicIncludes_selected in Hhd.
  apply videoBasicIncludes_not_selected in Hsd.
  unfold getVideoBasicFilter. simpl. now rewrite Hhd, Hsd.
Qed.

Lemma isHd_neither :
  ~ videoBasicSelected s IsHD -> ~ videoBasicSelected s IsSD ->
  isHd (getVideoBasicFilter s) = None.
Proof.
  intros Hhd Hsd. apply videoBasicIncludes_not_selected in Hhd.
  apply videoBasicIncludes_not_selected in Hsd.
  unfold getVideoBasicFilter. simpl. now rewrite Hhd, Hsd.
Qed.

Lemma is4K_cases :
  (videoBasicSelected s Is4K -> is4K (getVideoBasicFilter s) = Some true)
  /\ (~ videoBasicSelected s Is4K -> is4K (getVideoBasicFilter s) = None).
Proof.
  split; intro H.
  - apply videoBasicIncludes_selected in H.
    unfold getVideoBasicFilter. simpl. now rewrite H.
  - apply videoBasicIncludes_not_selected in H.
    unfold getVideoBasicFilter. simpl. now rewrite H.
Qed.

Lemma is3D_cases :
  (videoBasicSelected s Is3D -> is3D (getVideoBasicFilter s) = Some true)
  /\ (~ videoBasicSelected s Is3D -> is3D (getVideoBasicFilter s) = None).
Proof.
  split; intro H.
  - apply videoBasicIncludes_selected in H.
    unfold getVideoBasicFilter. simpl. now rewrite H.
  - apply videoBasicIncludes_not_selected in H.
    unfold getVideoBasicFilter. simpl. now rewrite H.
Qed.

Lemma is4K_is3D_never_false :
  is4K (getVideoBasicFilter s) <> Some false
  /\ is3D (getVideoBasicFilter s) <> Some false.
Proof.
  unfold getVideoBasicFilter. simpl.
  destruct (Js.truthy (videoBasicIncludes s Is4K));
    destruct (Js.truthy (videoBasicIncludes s Is3D)); split; congruence.
Qed.

End VideoBasic.

(** C1, as stated, fails: with both the HD and the SD flag selected the
    second test overwrites the first and [isHd] is [false], not [true]. *)
Lemma getVideoBasicFilter_hd_and_sd :
  videoBasicSelected settingsHdAndSd VideoBasicFilter.IsHD
  /\ videoBasicSelected settingsHdAndSd VideoBasicFilter.IsSD
  /\ isHd (getVideoBasicFilter settingsHdAndSd) = Some false
  /\ isHd (getVideoBasicFilter settingsHdAndSd) <> Some true.
Proof.
  repeat split.
  - apply videoBasicIncludes_selected. reflexivity.
  - apply videoBasicIncludes_selected. reflexivity.
  - discriminate.
Qed.

(** C1, amended: [isHd] is [false] whenever the SD flag is selected (also
    when the HD flag is selected with it), [true] when the HD flag is
    selected and the SD flag is not, and absent when neither is selected;
    [is4K] and [is3D] are [true] when their flag is selected and absent
    otherwise, never [false]. *)
Theorem getVideoBasicFilter_flags (s : LibraryViewSettings) :
  let q := getVideoBasicFilter s in
  let sel := videoBasicSelected s in
  (sel VideoBasicFilter.IsSD -> isHd q = Some false)
  /\ (sel VideoBasicFilter.IsHD -> ~ sel VideoBasicFilter.IsSD ->
      isHd q = Some true)
  /\ (~ sel VideoBasicFilter.IsHD -> ~ sel VideoBasicFilter.IsSD ->
      isHd q = None)
  /\ (sel VideoBasicFilter.Is4K -> is4K q = Some true)
  /\ (~ sel VideoBasicFilter.Is4K -> is4K q = None)
  /\ (sel VideoBasicFilter.Is3D -> is3D q = Some true)
  /\ (~ sel VideoBasicFilter.Is3D -> is3D q = None)
  /\ is4K q <> Some false
  /\ is3D q <> Some false.
Proof.
  cbv zeta.
  pose proof (is4K_cases s) as [H4a H4b].
  pose proof (is3D_cases s) as [H3a H3b].
  pose proof (is4K_is3D_never_false s) as [Hn4 Hn3].
  repeat split; auto using isHd_sd, isHd_hd_only, isHd_neither.
Qed.

(* ================================================================== *)
(** ** Episode filter *)
(* ================================================================== *)

Lemma isMissing_episodes (s : LibraryViewSettings) :
  isMissing (getEpisodeFilter LibraryTab.Episodes s)
  = Some (Js.truthy (episodeIncludes s EpisodeFilter.IsMissing)).
Proof. reflexivity. Qed.

Lemma isMissing_other (viewType : LibraryTab.t) (s : LibraryViewSettings) :
  viewType <> LibraryTab.Episodes ->
  isMissing (getEpisodeFilter viewType s) = None.
Proof.
  intro H. apply LibraryTab_eqb_neq in H.
  unfold getEpisodeFilter. simpl. now rewrite H.
Qed.

(** C6: [isMissing] is present only for the [Episodes] category; there,
    with the [IsMissing] flag selected, it is [true]; for every other
    category it is absent whatever the stored flag. *)
Theorem getEpisodeFilter_isMissing_gate
        (viewType : LibraryTab.t) (s : LibraryViewSettings) :
  (isMissing (getEpisodeFilter viewType s) <> None ->
   viewType = LibraryTab.Episodes)
  /\ (episodeSelected s EpisodeFilter.IsMissing ->
      isMissing (getEpisodeFilter LibraryTab.Episodes s) = Some true)
  /\ (viewType <> LibraryTab.Episodes ->
      isMissing (getEpisodeFilter viewType s) = None).
Proof.
  split; [|split].
  - intro H. destruct (LibraryTab.eqb viewType LibraryTab.Episodes) eqn:E.
    + now apply LibraryTab_eqb_eq.
    + apply LibraryTab_eqb_neq in E. now rewrite isMissing_other in H.
  - intro H. apply episodeIncludes_selected in H.
    now rewrite isMissing_episodes, H.
  - apply isMissing_other.
Qed.

(** C10: for the [Episodes] category [isMissing] is always a boolean:
    [true] when the [IsMissing] flag is selected, and the explicit value
    [false], not absent, when it is not selected, in particular when the
    filter selection or its episode part is absent. *)
Theorem getEpisodeFilter_isMissing_present (s : LibraryViewSettings) :
  let m := isMissing (getEpisodeFilter LibraryTab.Episodes s) in
  (exists b, m = Some b)
  /\ (episodeSelected s EpisodeFilter.IsMissing -> m = Some true)
  /\ (~ episodeSelected s EpisodeFilter.IsMissing -> m = Some false)
  /\ (Filters s = None -> m = Some false)
  /\ (forall f, Filters s = Some f -> Filters.EpisodeFilter f = None ->
                m = Some false).
Proof.
  cbv zeta. rewrite isMissing_episodes. repeat split.
  - eexists. reflexivity.
  - intro H. apply episodeIncludes_selected in H. now rewrite H.
  - intro H. apply episodeIncludes_not_selected in H. now rewrite H.
  - intro H. unfold episodeIncludes. now rewrite H.
  - intros f Hf He. unfold episodeIncludes. rewrite Hf. simpl. now rewrite He.
Qed.

(* ================================================================== *)
(** ** Alphabet query *)
(* ================================================================== *)

(** C5: with no alphabet selected both bounds are absent; for the
    alphabet ["#"] the upper bound is ["A"] and the prefix is absent;
    for any other alphabet the prefix is the alphabet and the upper
    bound is absent. *)
Theorem getAlphaPickerQuery_cases (s : LibraryViewSettings) :
  let q := getAlphaPickerQuery s in
  (Alphabet s = Js.undefined \/ Alphabet s = Js.null ->
   nameStartsWith q = None /\ nameLessThan q = None)
  /\ (Alphabet s = Js.val "#" ->
      nameLessThan q = Some "A" /\ nameStartsWith q = None)
  /\ (forall a, Alphabet s = Js.val a -> a <> "#" ->
                nameStartsWith q = Some a /\ nameLessThan q = None).
Proof.
  cbv zeta. unfold getAlphaPickerQuery. repeat split.
  - destruct H as [H|H]; now rewrite H.
  - destruct H as [H|H]; now rewrite H.
  - now rewrite H.
  - now rewrite H.
  - rewrite H. simpl. apply String.eqb_neq in H0. now rewrite H0.
  - rewrite H. simpl. apply String.eqb_neq in H0. now rewrite H0.
Qed.

(* ================================================================== *)
(** ** Default settings *)
(* ================================================================== *)

(** C8: the defaults are list view for songs and grid view otherwise,
    thumb images for networks and primary images otherwise, title shown,
    year hidden, no card layout, sorted by name, ascending, from offset 0,
    with no filters and no alphabet. *)
Theorem getDefaultLibraryViewSettings_values (viewType : LibraryTab.t) :
  let d := getDefaultLibraryViewSettings viewType in
  (viewType = LibraryTab.Songs -> ViewMode d = ViewMode.ListView)
  /\ (viewType <> LibraryTab.Songs -> ViewMode d = ViewMode.GridView)
  /\ (viewType = LibraryTab.Networks -> ImageType d = ImageType.Thumb)
  /\ (viewType <> LibraryTab.Networks -> ImageType d = ImageType.Primary)
  /\ ShowTitle d = true
  /\ ShowYear d = false
  /\ CardLayout d = false
  /\ SortBy d = ItemSortBy.SortName
  /\ SortOrder d = SortOrder.Ascending
  /\ StartIndex d = 0%Z
  /\ Filters d = None
  /\ Alphabet d = Js.undefined.
Proof.
  cbv zeta. repeat split; try reflexivity; intro H; simpl.
  - now subst viewType.
  - apply LibraryTab_eqb_neq in H. now rewrite H.
  - now subst viewType.
  - apply LibraryTab_eqb_neq in H. now rewrite H.
Qed.

(* ================================================================== *)
(** ** Field selection *)
(* ================================================================== *)

Lemma getItemFieldsEnum_networks (s : LibraryViewSettings) :
  getItemFieldsEnum LibraryTab.Networks s
  = ((if ImageType.eqb (ImageType s) ImageType.Primary
      then [ItemFields.PrimaryImageAspectRatio] else [])
     ++ [ItemFields.DateCreated; ItemFields.PrimaryImageAspectRatio])%list.
Proof.
  unfold getItemFieldsEnum. simpl.
  now destruct (ImageType.eqb (ImageType s) ImageType.Primary).
Qed.

Lemma getItemFieldsEnum_other (viewType : LibraryTab.t)
      (s : LibraryViewSettings) :
  viewType <> LibraryTab.Networks ->
  getItemFieldsEnum viewType s
  = ([ItemFields.BasicSyncInfo; ItemFields.MediaSourceCount]
     ++ (if ImageType.eqb (ImageType s) ImageType.Primary
         then [ItemFields.PrimaryImageAspectRatio] else []))%list.
Proof.
  intro H. apply LibraryTab_eqb_neq in H.
  unfold getItemFieldsEnum. rewrite H. simpl.
  now destruct (ImageType.eqb (ImageType s) ImageType.Primary).
Qed.

(** C3: the sync-info and media-source-count fields are requested exactly
    when the category is not [Networks]; for [Networks] the creation-date
    and aspect-ratio fields are requested and the other two are not; for
    any other category the aspect-ratio field is requested exactly when
    the image type is [Primary], and the creation date never. *)
Theorem getFieldsQuery_fields
        (viewType : LibraryTab.t) (s : LibraryViewSettings) :
  let fs := fields (getFieldsQuery viewType s) in
  (In ItemFields.BasicSyncInfo fs <-> viewType <> LibraryTab.Networks)
  /\ (In ItemFields.MediaSourceCount fs <-> viewType <> LibraryTab.Networks)
  /\ (viewType = LibraryTab.Networks ->
      In ItemFields.DateCreated fs
      /\ In ItemFields.PrimaryImageAspectRatio fs
      /\ ~ In ItemFields.BasicSyncInfo fs
      /\ ~ In ItemFields.MediaSourceCount fs)
  /\ (viewType <> LibraryTab.Networks ->
      (In ItemFields.PrimaryImageAspectRatio fs
       <-> ImageType s = ImageType.Primary)
      /\ ~ In ItemFields.DateCreated fs).
Proof.
  cbv zeta. unfold getFieldsQuery. simpl.
  destruct (LibraryTab.eqb viewType LibraryTab.Networks) eqn:E.
  - apply LibraryTab_eqb_eq in E. subst viewType.
    rewrite getItemFieldsEnum_networks.
    destruct (ImageType.eqb (ImageType s) ImageType.Primary); simpl;
      intuition congruence.
  - apply LibraryTab_eqb_neq in E.
    rewrite (getItemFieldsEnum_other _ s E).
    destruct (ImageType.eqb (ImageType s) ImageType.Primary) eqn:I; simpl.
    + apply ImageType_eqb_eq in I. intuition congruence.
    + assert (ImageType s <> ImageType.Primary) as I'.
      { intro C. apply ImageType_eqb_eq in C. congruence. }
      intuition congruence.
Qed.

(* ================================================================== *)
(** ** Card options *)
(* ================================================================== *)

Lemma getCardOptions_other_category (viewType : LibraryTab.t)
      (collectionType : option string) (s : LibraryViewSettings) :
  viewType <> LibraryTab.Artists ->
  lines (getCardOptions viewType collectionType s)
  = Some (if ShowTitle s then 2%Z else 0%Z)
  /\ showYear (getCardOptions viewType collectionType s) = ShowYear s.
Proof.
  intro H. unfold getCardOptions.
  destruct (imageShape (ImageType s)) as [[[sh pt] pd] pl].
  destruct viewType; try congruence; simpl; split; reflexivity.
Qed.

(** C7: for the artists category the options have one line and no year,
    whatever the settings say, while the title and card-layout options
    still follow the settings; for every other category there are two
    lines when the title is shown and none when it is hidden. *)
Theorem getCardOptions_artists_lines (collectionType : option string)
        (s : LibraryViewSettings) :
  let artists := getCardOptions LibraryTab.Artists collectionType s in
  lines artists = Some 1%Z
  /\ showYear artists = false
  /\ showTitle artists = ShowTitle s
  /\ cardLayout artists = CardLayout s
  /\ (forall viewType, viewType <> LibraryTab.Artists ->
        (ShowTitle s = true ->
         lines (getCardOptions viewType collectionType s) = Some 2%Z)
        /\ (ShowTitle s = false ->
            lines (getCardOptions viewType collectionType s) = Some 0%Z)).
Proof.
  cbv zeta. unfold getCardOptions at 1 2 3 4.
  destruct (imageShape (ImageType s)) as [[[sh pt] pd] pl]. simpl.
  repeat split; intro Ht;
    destruct (getCardOptions_other_category _ collectionType s H) as [Hl _];
    now rewrite Hl, Ht.
Qed.

(* ================================================================== *)
(** ** Derived flag [hasFilters] *)
(* ================================================================== *)

Lemma hasFilters_absent (s : LibraryViewSettings) :
  Filters s = None \/ Filters s = Some Filters.empty -> hasFilters s = false.
Proof. unfold hasFilters. intros [H|H]; now rewrite H. Qed.

Lemma hasFilters_set (s : LibraryViewSettings) (f : Filters.t) :
  Filters s = Some f -> f <> Filters.empty -> hasFilters s = true.
Proof.
  unfold hasFilters. intros -> Hne.
  destruct f as [p1 p2 p3 p4 p5 p6 p7 p8 p9 p10 p11].
  destruct p1; [reflexivity|]. destruct p2; [reflexivity|].
  destruct p3; [reflexivity|]. destruct p4; [reflexivity|].
  destruct p5; [reflexivity|]. destruct p6; [reflexivity|].
  destruct p7; [reflexivity|]. destruct p8; [reflexivity|].
  destruct p9; [reflexivity|]. destruct p10; [reflexivity|].
  destruct p11; [reflexivity|].
  exfalso. now apply Hne.
Qed.

Lemma hasFilters_iff (s : LibraryViewSettings) :
  hasFilters s = true
  <-> exists f, Filters s = Some f /\ f <> Filters.empty.
Proof.
  split.
  - intro H. destruct (Filters s) as [f|] eqn:Hf.
    + exists f. split; [reflexivity|]. intro E. subst f.
      rewrite hasFilters_absent in H; [discriminate | now right].
    + rewrite hasFilters_absent in H; [discriminate | now left].
  - intros (f & Hf & Hne). now apply (hasFilters_set s f).
Qed.

(** C2, as stated, fails: an empty collection is a truthy entry, so
    [hasFilters] is [true] although no entry of the selection is a
    non-empty collection. *)
Lemma hasFilters_empty_collection :
  hasFilters settingsEmptyGenres = true
  /\ ~ someNonEmptyEntry settingsEmptyGenres.
Proof.
  split; [reflexivity|].
  intros (f & v & Hf & Hin & Hlen).
  injection Hf as <-. simpl in Hin.
  repeat (destruct Hin as [Hin|Hin]; [try discriminate Hin|]).
  - injection Hin as <-. simpl in Hlen. lia.
  - contradiction.
Qed.

(** C2, amended: [hasFilters] is [true] if and only if the filter
    selection is present and at least one of its entries is set, to a
    collection of any size; it is [false] for the default settings, [true]
    once a genre is held by the selection, and [false] when the selection
    is absent or none of its entries is set. *)
Theorem hasFilters_entry_set (s : LibraryViewSettings) :
  (hasFilters s = true
   <-> exists f, Filters s = Some f /\ f <> Filters.empty)
  /\ (forall viewType,
         hasFilters (getDefaultLibraryViewSettings viewType) = false)
  /\ (forall f genre genres,
         Filters s = Some f ->
         Filters.Genres f = Some (genre :: genres) ->
         hasFilters s = true)
  /\ (Filters s = None \/ Filters s = Some Filters.empty ->
      hasFilters s = false).
Proof.
  split; [apply hasFilters_iff|]. split; [reflexivity|]. split.
  - intros f genre genres Hf Hg. apply (hasFilters_set s f); [exact Hf|].
    intro E. subst f. discriminate Hg.
  - apply hasFilters_absent.
Qed.

(* ================================================================== *)
(** ** Occurrences in strings *)
(* ================================================================== *)

Lemma String_includes_unfold (s needle : string) :
  Js.String_includes s needle
  = Js.starts_with needle s
    || match s with
       | EmptyString => false
       | String _ s' => Js.String_includes s' needle
       end.
Proof. destruct s; reflexivity. Qed.

Lemma starts_with_iff (needle s : string) :
  Js.starts_with needle s = true <-> exists post, s = needle ++ post.
Proof.
  revert s. induction needle as [|a needle IH]; intro s; simpl.
  - split; [intros _; now exists s | reflexivity].
  - destruct s as [|b s].
    + split; [discriminate | intros [post H]; discriminate H].
    + rewrite andb_true_iff, Ascii.eqb_eq, IH. split.
      * intros [-> [post ->]]. now exists post.
      * intros [post H]. injection H as -> ->. split; [reflexivity|].
        now exists post.
Qed.

Lemma String_includes_iff (s needle : string) :
  Js.String_includes s needle = true <-> occursIn needle s.
Proof.
  unfold occursIn. split.
  - induction s as [|c s IH]; rewrite String_includes_unfold, orb_true_iff.
    + intros [H|H]; [|discriminate H].
      apply starts_with_iff in H. destruct H as [post ->].
      now exists "", post.
    + intros [H|H].
      * apply starts_with_iff in H. destruct H as [post ->].
        now exists "", post.
      * destruct (IH H) as (pre & post & ->). now exists (String c pre), post.
  - intros (pre & post & ->).
    induction pre as [|c pre IH]; rewrite String_includes_unfold, orb_true_iff.
    + left. apply starts_with_iff. now exists post.
    + right. exact IH.
Qed.

Lemma no_char_cons (x c : ascii) (s : string) :
  Js.String_includes (String c s) (String x "") = false ->
  c <> x /\ Js.String_includes s (String x "") = false.
Proof.
  rewrite String_includes_unfold. simpl Js.starts_with.
  rewrite andb_true_r, orb_false_iff, Ascii.eqb_neq.
  intros [H1 H2]. split; congruence.
Qed.

(** A needle without comma that starts in front of a comma ends there. *)
Lemma starts_with_before_comma (needle a r : string) :
  Js.String_includes needle "," = false ->
  Js.starts_with needle (a ++ String "," r) = Js.starts_with needle a.
Proof.
  revert a. induction needle as [|c needle IH]; intros a Hc; [reflexivity|].
  apply no_char_cons in Hc. destruct Hc as [Hne Hc].
  destruct a as [|b a]; simpl.
  - apply Ascii.eqb_neq in Hne. now rewrite Hne.
  - now rewrite (IH a Hc).
Qed.

Lemma String_includes_comma (needle a r : string) :
  Js.String_includes needle "," = false ->
  Js.String_includes (a ++ String "," r) needle
  = Js.String_includes a needle || Js.String_includes r needle.
Proof.
  intro Hc. induction a as [|b a IH].
  - rewrite (String_includes_unfold ("" ++ String "," r) needle).
    rewrite (starts_with_before_comma needle "" r Hc). simpl.
    now rewrite orb_false_r.
  - rewrite (String_includes_unfold (String b a ++ String "," r) needle).
    rewrite (starts_with_before_comma needle (String b a) r Hc).
    simpl append. lazy beta iota. rewrite IH.
    rewrite (String_includes_unfold (String b a) needle).
    now rewrite orb_assoc.
Qed.

Lemma String_includes_concat (c : ascii) (needle : string) (l : list string) :
  Js.String_includes (String c needle) "," = false ->
  Js.String_includes (String.concat "," l) (String c needle)
  = existsb (fun f => Js.String_includes f (String c needle)) l.
Proof.
  intro Hc. induction l as [|a l IH]; [reflexivity|].
  destruct l as [|b l].
  - simpl. now rewrite orb_false_r.
  - change (String.concat "," (a :: b :: l))
      with (a ++ String "," (String.concat "," (b :: l))).
    rewrite (String_includes_comma _ a _ Hc), IH. reflexivity.
Qed.

(** Two texts without blank in front of [" - "] are told apart. *)
Lemma separator_split (a b x y : string) :
  Js.String_includes a " " = false ->
  Js.String_includes b " " = false ->
  a ++ " - " ++ x = b ++ " - " ++ y ->
  a = b /\ x = y.
Proof.
  revert b. induction a as [|c a IH]; intros [|d b] Ha Hb H; simpl in H.
  - injection H as ->. now split.
  - injection H as <- _. apply no_char_cons in Hb. now destruct Hb.
  - injection H as -> _. apply no_char_cons in Ha. now destruct Ha.
  - injection H as -> H.
    apply no_char_cons in Ha. apply no_char_cons in Hb.
    destruct (IH b (proj2 Ha) (proj2 Hb) H) as [-> ->]. now split.
Qed.

(* ================================================================== *)
(** ** Settings key *)
(* ================================================================== *)

Lemma interpolate_val_inj (p1 p2 : ParentId) :
  p1 <> Js.val "null" -> p1 <> Js.val "undefined" ->
  p2 <> Js.val "null" -> p2 <> Js.val "undefined" ->
  Js.interpolate p1 = Js.interpolate p2 -> p1 = p2.
Proof.
  intros N1 U1 N2 U2.
  destruct p1 as [| |q1], p2 as [| |q2]; simpl; intro H;
    try reflexivity; try discriminate H; subst; congruence.
Qed.

Lemma tabName_inj (a b : LibraryTab.t) : tabName a = tabName b -> a = b.
Proof. destruct a, b; simpl; intro H; try reflexivity; discriminate H. Qed.

Lemma tabName_no_blank (c : LibraryTab.t) :
  Js.String_includes (tabName c) " " = false.
Proof. destruct c; reflexivity. Qed.

(** C4, as stated, fails: the absent parent id [null] and the parent id
    spelled ["null"] get the same key (and likewise [undefined] and
    ["undefined"]). *)
Lemma getSettingsKey_collision :
  getSettingsKey tabName LibraryTab.Movies Js.null
  = getSettingsKey tabName LibraryTab.Movies (Js.val "null")
  /\ Js.null <> Js.val "null"
  /\ getSettingsKey tabName LibraryTab.Movies Js.undefined
     = getSettingsKey tabName LibraryTab.Movies (Js.val "undefined")
  /\ @Js.undefined string <> Js.val "undefined".
Proof. repeat split; discriminate. Qed.

Lemma append_cancel_l (a x y : string) : a ++ x = a ++ y -> x = y.
Proof.
  induction a as [|c a IH]; simpl; intro H; [exact H|].
  injection H as H. now apply IH.
Qed.

Section SettingsKeyInjective.

Variable tabText : LibraryTab.t -> string.

Lemma getSettingsKey_same_category (c : LibraryTab.t) (p1 p2 : ParentId) :
  getSettingsKey tabText c p1 = getSettingsKey tabText c p2
  <-> Js.interpolate p1 = Js.interpolate p2.
Proof.
  unfold getSettingsKey. split.
  - intro H. apply append_cancel_l in H. now apply append_cancel_l in H.
  - now intros ->.
Qed.

Lemma getSettingsKey_eq (c1 c2 : LibraryTab.t) (p1 p2 : ParentId) :
  (forall a b, tabText a = tabText b -> a = b) ->
  (forall c, Js.String_includes (tabText c) " " = false) ->
  getSettingsKey tabText c1 p1 = getSettingsKey tabText c2 p2
  <-> c1 = c2 /\ Js.interpolate p1 = Js.interpolate p2.
Proof.
  intros tabText_inj tabText_no_blank. unfold getSettingsKey. split.
  - intro H.
    apply separator_split in H; try apply tabText_no_blank.
    destruct H as [Hc Hp]. split; [now apply tabText_inj | exact Hp].
  - intros [-> ->]. reflexivity.
Qed.

(** C4, amended: whatever the texts of the categories, an absent parent
    id is not elided but interpolated, [null] as ["null"] and
    [undefined] as ["undefined"], a present one as itself; two keys of
    one category are equal if and only if the parent ids are interpolated
    to the same text, and two categories with the same text share their
    keys.  Provided the texts of the categories are pairwise distinct and
    hold no blank, two keys are equal if and only if the categories are
    equal and the parent ids are interpolated to the same text; the key
    is then injective over the categories and the parent ids that are
    not spelled ["null"] or ["undefined"]. *)
Theorem getSettingsKey_injective (c1 c2 : LibraryTab.t) (p1 p2 : ParentId) :
  getSettingsKey tabText c1 Js.null = tabText c1 ++ " - null"
  /\ getSettingsKey tabText c1 Js.undefined = tabText c1 ++ " - undefined"
  /\ (forall q, getSettingsKey tabText c1 (Js.val q)
                = tabText c1 ++ " - " ++ q)
  /\ (getSettingsKey tabText c1 p1 = getSettingsKey tabText c1 p2
      <-> Js.interpolate p1 = Js.interpolate p2)
  /\ (tabText c1 = tabText c2 ->
      getSettingsKey tabText c1 p1 = getSettingsKey tabText c2 p1)
  /\ ((forall a b, tabText a = tabText b -> a = b) ->
      (forall c, Js.String_includes (tabText c) " " = false) ->
      (getSettingsKey tabText c1 p1 = getSettingsKey tabText c2 p2
       <-> c1 = c2 /\ Js.interpolate p1 = Js.interpolate p2)
      /\ (p1 <> Js.val "null" -> p1 <> Js.val "undefined" ->
          p2 <> Js.val "null" -> p2 <> Js.val "undefined" ->
          (getSettingsKey tabText c1 p1 = getSettingsKey tabText c2 p2
           <-> c1 = c2 /\ p1 = p2))).
Proof.
  split; [reflexivity|]. split; [reflexivity|]. split; [reflexivity|].
  split; [apply getSettingsKey_same_category|]. split.
  - unfold getSettingsKey. now intros ->.
  - intros Hinj Hblank.
    pose proof (getSettingsKey_eq c1 c2 p1 p2 Hinj Hblank) as Heq.
    split; [exact Heq|].
    intros N1 U1 N2 U2. rewrite Heq. split.
    + intros [Hc Hp]. split; [exact Hc|].
      now apply interpolate_val_inj.
    + intros [-> ->]. now split.
Qed.

End SettingsKeyInjective.

Lemma getSettingsKey_injective_witness :
  (forall a b, tabName a = tabName b -> a = b)
  /\ (forall c, Js.String_includes (tabName c) " " = false)
  /\ (getSettingsKey tabName LibraryTab.Movies (Js.val "f137a2dd")
      = getSettingsKey tabName LibraryTab.Songs Js.null
      <-> LibraryTab.Movies = LibraryTab.Songs
          /\ Js.val "f137a2dd" = Js.null)
  /\ (getSettingsKey tabName LibraryTab.Movies (Js.val "f137a2dd")
      = getSettingsKey tabName LibraryTab.Movies (Js.val "f137a2dd")
      <-> LibraryTab.Movies = LibraryTab.Movies
          /\ Js.val "f137a2dd" = Js.val "f137a2dd").
Proof.
  split; [exact tabName_inj|]. split; [exact tabName_no_blank|]. split.
  - apply (getSettingsKey_injective tabName
             LibraryTab.Movies LibraryTab.Songs (Js.val "f137a2dd") Js.null);
      try discriminate; [exact tabName_inj | exact tabName_no_blank].
  - apply (getSettingsKey_injective tabName
             LibraryTab.Movies LibraryTab.Movies
             (Js.val "f137a2dd") (Js.val "f137a2dd"));
      try discriminate; [exact tabName_inj | exact tabName_no_blank].
Defined.

(* ================================================================== *)
(** ** Derived flag [hasSortName] *)
(* ================================================================== *)

(** C9, as stated, fails: [SortBy] is a string, and the test on it is
    [true] for a sort field whose identifier merely contains the text of
    [ItemSortBy.SortName], although the sequence of sort fields does not
    include [ItemSortBy.SortName]. *)
Lemma hasSortName_series_sort_name :
  SortBy settingsBySeriesName = "SeriesSortName"
  /\ hasSortName settingsBySeriesName = true
  /\ ~ In ItemSortBy.SortName ["SeriesSortName"].
Proof.
  repeat split. intros [H|[]]. discriminate H.
Qed.

Lemma hasSortName_fields (s : LibraryViewSettings) (sortFields : list string) :
  SortBy s = sortFieldsText sortFields ->
  hasSortName s
  = existsb (fun f => Js.String_includes f ItemSortBy.SortName) sortFields.
Proof.
  unfold hasSortName, sortFieldsText. intros ->.
  now apply String_includes_concat.
Qed.

(** C9, amended: [hasSortName] is [true] if and only if the text of
    [ItemSortBy.SortName] occurs in the string [SortBy]; when [SortBy]
    is the text of a sequence of sort-field identifiers, that is if and
    only if it occurs in one of the identifiers, so in particular
    whenever the sequence includes [ItemSortBy.SortName]. *)
Theorem hasSortName_occurs (s : LibraryViewSettings) :
  (hasSortName s = true <-> occursIn ItemSortBy.SortName (SortBy s))
  /\ (forall sortFields,
         SortBy s = sortFieldsText sortFields ->
         (hasSortName s = true
          <-> exists f, In f sortFields /\ occursIn ItemSortBy.SortName f))
  /\ (forall sortFields,
         SortBy s = sortFieldsText sortFields ->
         In ItemSortBy.SortName sortFields ->
         hasSortName s = true).
Proof.
  split; [apply String_includes_iff|]. split.
  - intros sortFields H. rewrite (hasSortName_fields s sortFields H).
    rewrite existsb_exists. split.
    + intros (f & Hin & Hf). exists f. split; [exact Hin|].
      now apply String_includes_iff.
    + intros (f & Hin & Hf). exists f. split; [exact Hin|].
      now apply String_includes_iff.
  - intros sortFields H Hin. rewrite (hasSortName_fields s sortFields H).
    apply existsb_exists. exists ItemSortBy.SortName.
    split; [exact Hin | reflexivity].
Qed.

(* ================================================================== *)
(** ** Further properties of the filter extraction *)
(* ================================================================== *)

Lemma FeatureFilters_eqb_eq (a b : FeatureFilters.t) :
  FeatureFilters.eqb a b = true <-> a = b.
Proof. destruct a, b; simpl; split; congruence. Qed.

Lemma featuresIncludes_selected (s : LibraryViewSettings)
      (x : FeatureFilters.t) :
  Js.truthy (featuresIncludes s x) = true <-> featureSelected s x.
Proof.
  unfold featuresIncludes, featureSelected, Js.opt_includes, Js.opt_get.
  destruct (Filters s) as [f|]; simpl.
  - destruct (Filters.Features f) as [l|] eqn:Hl; simpl.
    + rewrite (Array_includes_In _ _ FeatureFilters_eqb_eq). split.
      * intro Hin. now exists f, l.
      * intros (f' & l' & Hf & Hl' & Hin).
        injection Hf as <-. rewrite Hl in Hl'. now injection Hl' as <-.
    + split; [discriminate|].
      intros (f' & l' & Hf & Hl' & _). injection Hf as <-. congruence.
  - split; [discriminate|]. intros (f' & l' & Hf & _). discriminate.
Qed.

Lemma featureField_value (s : LibraryViewSettings) (x : FeatureFilters.t) :
  featureField x (getFeatureFilters s)
  = if Js.truthy (featuresIncludes s x) then Some true else None.
Proof. destruct x; reflexivity. Qed.

(** X1: each of the five feature properties is [true] when its flag is
    selected and absent otherwise; none is ever [false]. *)
Theorem getFeatureFilters_flags (s : LibraryViewSettings)
        (x : FeatureFilters.t) :
  (featureSelected s x ->
   featureField x (getFeatureFilters s) = Some true)
  /\ (~ featureSelected s x ->
      featureField x (getFeatureFilters s) = None)
  /\ featureField x (getFeatureFilters s) <> Some false.
Proof.
  rewrite featureField_value.
  destruct (Js.truthy (featuresIncludes s x)) eqn:E.
  - repeat split; try congruence.
    intro H. exfalso. apply H. now apply featuresIncludes_selected.
  - repeat split; try congruence.
    intro H. apply featuresIncludes_selected in H. congruence.
Qed.

(** X2: [parentIndexNumber] is the number [0] when its flag is selected
    and absent otherwise, [isUnaired] is [true] when its flag is selected
    and absent otherwise, and neither depends on the category. *)
Theorem getEpisodeFilter_ungated (viewType : LibraryTab.t)
        (s : LibraryViewSettings) :
  let q := getEpisodeFilter viewType s in
  (episodeSelected s EpisodeFilter.ParentIndexNumber ->
   parentIndexNumber q = Some 0%Z)
  /\ (~ episodeSelected s EpisodeFilter.ParentIndexNumber ->
      parentIndexNumber q = None)
  /\ (episodeSelected s EpisodeFilter.IsUnaired -> isUnaired q = Some true)
  /\ (~ episodeSelected s EpisodeFilter.IsUnaired -> isUnaired q = None)
  /\ (forall other,
         parentIndexNumber q = parentIndexNumber (getEpisodeFilter other s)
         /\ isUnaired q = isUnaired (getEpisodeFilter other s)).
Proof.
  cbv zeta. unfold getEpisodeFilter. simpl. repeat split.
  - intro H. apply episodeIncludes_selected in H. now rewrite H.
  - intro H. apply episodeIncludes_not_selected in H. now rewrite H.
  - intro H. apply episodeIncludes_selected in H. now rewrite H.
  - intro H. apply episodeIncludes_not_selected in H. now rewrite H.
Qed.

Lemma videoBasicIncludes_same (s1 s2 : LibraryViewSettings)
      (x : VideoBasicFilter.t) :
  (videoBasicSelected s1 x <-> videoBasicSelected s2 x) ->
  Js.truthy (videoBasicIncludes s1 x) = Js.truthy (videoBasicIncludes s2 x).
Proof.
  rewrite <- !videoBasicIncludes_selected.
  destruct (Js.truthy (videoBasicIncludes s1 x)),
    (Js.truthy (videoBasicIncludes s2 x)); intros [H1 H2];
    try reflexivity; [symmetry; now apply H1 | now apply H2].
Qed.

(** X3: the video-basic query depends only on which flags are selected:
    two settings whose selections have the same members, in whatever
    order and however often, give the same query. *)
Theorem getVideoBasicFilter_same_members (s1 s2 : LibraryViewSettings) :
  (forall x, videoBasicSelected s1 x <-> videoBasicSelected s2 x) ->
  getVideoBasicFilter s1 = getVideoBasicFilter s2.
Proof.
  intro H. unfold getVideoBasicFilter.
  rewrite (videoBasicIncludes_same s1 s2 _ (H VideoBasicFilter.IsHD)).
  rewrite (videoBasicIncludes_same s1 s2 _ (H VideoBasicFilter.IsSD)).
  rewrite (videoBasicIncludes_same s1 s2 _ (H VideoBasicFilter.Is4K)).
  rewrite (videoBasicIncludes_same s1 s2 _ (H VideoBasicFilter.Is3D)).
  reflexivity.
Qed.

Lemma getVideoBasicFilter_same_members_witness :
  (forall x, videoBasicSelected settingsHd4K x
             <-> videoBasicSelected settings4KHdHd x)
  /\ getVideoBasicFilter settingsHd4K = getVideoBasicFilter settings4KHdHd.
Proof.
  assert (forall x, videoBasicSelected settingsHd4K x
                    <-> videoBasicSelected settings4KHdHd x) as H.
  { intro x. rewrite <- !videoBasicIncludes_selected.
    destruct x; simpl; split; intro E; exact E. }
  split; [exact H|].
  exact (getVideoBasicFilter_same_members settingsHd4K settings4KHdHd H).
Defined.

(* ================================================================== *)
(** ** Further properties of the query building *)
(* ================================================================== *)

(** X4: the alphabet query never holds both bounds; the upper bound is
    present exactly for the alphabet ["#"] and is then ["A"]; the prefix
    is never ["#"]. *)
Theorem getAlphaPickerQuery_bounds (s : LibraryViewSettings) :
  let q := getAlphaPickerQuery s in
  (nameLessThan q = None \/ nameStartsWith q = None)
  /\ (nameLessThan q = None \/ nameLessThan q = Some "A")
  /\ (nameLessThan q = Some "A" <-> Alphabet s = Js.val "#")
  /\ nameStartsWith q <> Some "#".
Proof.
  cbv zeta. unfold getAlphaPickerQuery.
  destruct (Alphabet s) as [| |a]; simpl.
  - repeat split; auto; discriminate.
  - repeat split; auto; discriminate.
  - destruct (String.eqb a "#") eqn:E.
    + apply String.eqb_eq in E. subst a. repeat split; auto; discriminate.
    + apply String.eqb_neq in E.
      split; [now left|]. split; [now left|]. split; [split|].
      * discriminate.
      * intro H. injection H as ->. now contradiction E.
      * intro H. injection H as ->. now contradiction E.
Qed.

(** X5: the requested fields hold no field twice, except for the
    [Networks] category with the [Primary] image type, where the
    aspect-ratio field is requested twice. *)
Theorem getItemFieldsEnum_duplicates (viewType : LibraryTab.t)
        (s : LibraryViewSettings) :
  (NoDup (getItemFieldsEnum viewType s)
   <-> ~ (viewType = LibraryTab.Networks
          /\ ImageType s = ImageType.Primary))
  /\ (viewType = LibraryTab.Networks -> ImageType s = ImageType.Primary ->
      count_occ ItemFields_eq_dec (getItemFieldsEnum viewType s)
                ItemFields.PrimaryImageAspectRatio = 2%nat).
Proof.
  destruct (LibraryTab.eqb viewType LibraryTab.Networks) eqn:E.
  - apply LibraryTab_eqb_eq in E. subst viewType.
    rewrite getItemFieldsEnum_networks.
    destruct (ImageType.eqb (ImageType s) ImageType.Primary) eqn:I.
    + apply ImageType_eqb_eq in I. simpl. split; [split|reflexivity].
      * intros H [_ _]. inversion H as [|x l Hin _]. apply Hin.
        simpl. tauto.
      * intro H. exfalso. apply H. now split.
    + simpl. split.
      * split.
        -- intros _ [_ C]. apply ImageType_eqb_eq in C. congruence.
        -- intros _. repeat constructor; simpl; intuition discriminate.
      * intros _ C. apply ImageType_eqb_eq in C. congruence.
  - apply LibraryTab_eqb_neq in E.
    rewrite (getItemFieldsEnum_other _ s E). split.
    + split; [tauto|]. intros _.
      destruct (ImageType.eqb (ImageType s) ImageType.Primary); simpl;
        repeat constructor; simpl; intuition discriminate.
    + tauto.
Qed.

(** X6: with the default settings of its own category, every category
    requests the aspect-ratio field exactly once: [Networks] after the
    creation date, every other category after the sync-info and
    media-source-count fields. *)
Theorem getFieldsQuery_default (viewType : LibraryTab.t) :
  let fs := fields (getFieldsQuery viewType
                      (getDefaultLibraryViewSettings viewType)) in
  (viewType = LibraryTab.Networks ->
   fs = [ItemFields.DateCreated; ItemFields.PrimaryImageAspectRatio])
  /\ (viewType <> LibraryTab.Networks ->
      fs = [ItemFields.BasicSyncInfo; ItemFields.MediaSourceCount;
            ItemFields.PrimaryImageAspectRatio])
  /\ NoDup fs
  /\ count_occ ItemFields_eq_dec fs ItemFields.PrimaryImageAspectRatio
     = 1%nat.
Proof.
  cbv zeta.
  destruct viewType; simpl; repeat split; try congruence;
    repeat constructor; simpl; intuition discriminate.
Qed.

(** X7: the limit is absent exactly when the page size is absent or [0];
    any other page size is passed on as it is, so the limit is never
    [0]. *)
Theorem getLimitQuery_zero (libraryPageSize : option Z) :
  (limit (getLimitQuery libraryPageSize) = None
   <-> libraryPageSize = None \/ libraryPageSize = Some 0%Z)
  /\ limit (getLimitQuery libraryPageSize) <> Some 0%Z
  /\ (forall n, libraryPageSize = Some n -> n <> 0%Z ->
                limit (getLimitQuery libraryPageSize) = Some n).
Proof.
  unfold getLimitQuery. simpl. destruct libraryPageSize as [n|].
  - destruct (Z.eqb n 0) eqn:E.
    + apply Z.eqb_eq in E. subst n. repeat split; auto; try discriminate.
      intros n H. injection H as <-. congruence.
    + apply Z.eqb_neq in E. repeat split; try congruence.
      intros [H|H]; congruence.
  - repeat split; auto; discriminate.
Qed.

(* ================================================================== *)
(** ** The filter query *)
(* ================================================================== *)

Lemma getFiltersQuery_eq (viewType : LibraryTab.t) (s : LibraryViewSettings) :
  getFiltersQuery viewType s
  = (FeatureQuery_object (getFeatureFilters s)
     ++ EpisodeQuery_object (getEpisodeFilter viewType s)
     ++ VideoBasicQuery_object (getVideoBasicFilter s)
     ++ freeFormEntries s)%list.
Proof. reflexivity. Qed.

(** X8: the filter query holds the properties of the feature, episode and
    video-basic queries and the eight free-form selections, one after the
    other: the nineteen property names are distinct, so no spread and no
    later property overwrites an earlier one, and each value is the one
    its extractor or the settings record gave. *)
Theorem getFiltersQuery_entries (viewType : LibraryTab.t)
        (s : LibraryViewSettings) :
  let q := getFiltersQuery viewType s in
  q = (FeatureQuery_object (getFeatureFilters s)
       ++ EpisodeQuery_object (getEpisodeFilter viewType s)
       ++ VideoBasicQuery_object (getVideoBasicFilter s)
       ++ freeFormEntries s)%list
  /\ NoDup (Object_keys q)
  /\ List.length q = 19%nat
  /\ Object_get "isMissing" q
     = Some (ofBool (isMissing (getEpisodeFilter viewType s)))
  /\ Object_get "isHd" q = Some (ofBool (isHd (getVideoBasicFilter s)))
  /\ Object_get "hasSubtitles" q
     = Some (ofBool (hasSubtitles (getFeatureFilters s)))
  /\ Object_get "filters" q
     = Some (ofStrings (Js.opt_get (Filters s) Filters.Status))
  /\ Object_get "genres" q
     = Some (ofStrings (Js.opt_get (Filters s) Filters.Genres)).
Proof.
  cbv zeta. rewrite getFiltersQuery_eq.
  split; [reflexivity|]. split; [|repeat split].
  unfold Object_keys. simpl.
  repeat (constructor; [simpl; intuition discriminate|]). constructor.
Qed.

Lemma hasFilters_false_inv (s : LibraryViewSettings) :
  hasFilters s = false ->
  Filters s = None \/ Filters s = Some Filters.empty.
Proof.
  intro H. destruct (Filters s) as [f|] eqn:Hf; [right|now left].
  destruct f as [p1 p2 p3 p4 p5 p6 p7 p8 p9 p10 p11].
  destruct p1, p2, p3, p4;
    try (rewrite (hasFilters_set s _ Hf) in H; [discriminate H|discriminate]).
  destruct p5, p6, p7, p8;
    try (rewrite (hasFilters_set s _ Hf) in H; [discriminate H|discriminate]).
  destruct p9, p10, p11;
    try (rewrite (hasFilters_set s _ Hf) in H; [discriminate H|discriminate]).
  reflexivity.
Qed.

Lemma getFiltersQuery_without_filters (viewType : LibraryTab.t)
      (s : LibraryViewSettings) :
  Filters s = None \/ Filters s = Some Filters.empty ->
  getFiltersQuery viewType s
  = [ ("hasSubtitles", QUndefined); ("hasTrailer", QUndefined);
      ("hasSpecialFeature", QUndefined); ("hasThemeSong", QUndefined);
      ("hasThemeVideo", QUndefined); ("parentIndexNumber", QUndefined);
      ("isMissing",
       if LibraryTab.eqb viewType LibraryTab.Episodes
       then QBool false else QUndefined);
      ("isUnaired", QUndefined); ("isHd", QUndefined); ("is4K", QUndefined);
      ("is3D", QUndefined); ("seriesStatus", QUndefined);
      ("videoTypes", QUndefined); ("filters", QUndefined);
      ("genres", QUndefined); ("officialRatings", QUndefined);
      ("tags", QUndefined); ("years", QUndefined);
      ("studioIds", QUndefined) ].
Proof.
  intro H. rewrite getFiltersQuery_eq.
  unfold getFeatureFilters, getEpisodeFilter, getVideoBasicFilter,
    freeFormEntries, featuresIncludes, episodeIncludes, videoBasicIncludes.
  destruct H as [H|H]; rewrite H; simpl;
    now destruct (LibraryTab.eqb viewType LibraryTab.Episodes).
Qed.

(** X9: when [hasFilters] is [false] the filter query is exactly the
    nineteen properties with every value [undefined], except that
    [isMissing] is [false] for the [Episodes] category (and [undefined]
    for every other category). *)
Theorem getFiltersQuery_no_filters (viewType : LibraryTab.t)
        (s : LibraryViewSettings) :
  hasFilters s = false ->
  let q := getFiltersQuery viewType s in
  q = [ ("hasSubtitles", QUndefined); ("hasTrailer", QUndefined);
        ("hasSpecialFeature", QUndefined); ("hasThemeSong", QUndefined);
        ("hasThemeVideo", QUndefined); ("parentIndexNumber", QUndefined);
        ("isMissing",
         if LibraryTab.eqb viewType LibraryTab.Episodes
         then QBool false else QUndefined);
        ("isUnaired", QUndefined); ("isHd", QUndefined);
        ("is4K", QUndefined); ("is3D", QUndefined);
        ("seriesStatus", QUndefined); ("videoTypes", QUndefined);
        ("filters", QUndefined); ("genres", QUndefined);
        ("officialRatings", QUndefined); ("tags", QUndefined);
        ("years", QUndefined); ("studioIds", QUndefined) ]
  /\ (viewType = LibraryTab.Episodes ->
      Object_get "isMissing" q = Some (QBool false))
  /\ (viewType <> LibraryTab.Episodes ->
      Object_get "isMissing" q = Some QUndefined)
  /\ (forall k v, In (k, v) q -> k <> "isMissing" -> v = QUndefined).
Proof.
  intro H. cbv zeta. apply hasFilters_false_inv in H.
  rewrite (getFiltersQuery_without_filters viewType s H).
  split; [reflexivity|]. split; [|split].
  - intros ->. reflexivity.
  - intro Hne. apply LibraryTab_eqb_neq in Hne. simpl. now rewrite Hne.
  - intros k v Hin Hk. simpl in Hin.
    repeat (destruct Hin as [Hin|Hin];
            [injection Hin as <- <-; try reflexivity|]);
      [|contradiction].
    now contradiction Hk.
Qed.

Lemma getFiltersQuery_no_filters_witness :
  hasFilters (getDefaultLibraryViewSettings LibraryTab.Episodes) = false
  /\ Object_get "isMissing"
       (getFiltersQuery LibraryTab.Episodes
          (getDefaultLibraryViewSettings LibraryTab.Episodes))
     = Some (QBool false)
  /\ Object_get "isMissing"
       (getFiltersQuery LibraryTab.Movies
          (getDefaultLibraryViewSettings LibraryTab.Movies))
     = Some QUndefined.
Proof.
  split; [reflexivity|]. split.
  - exact (proj1 (proj2 (getFiltersQuery_no_filters LibraryTab.Episodes
                           (getDefaultLibraryViewSettings LibraryTab.Episodes)
                           eq_refl)) eq_refl).
  - apply (getFiltersQuery_no_filters LibraryTab.Movies
             (getDefaultLibraryViewSettings LibraryTab.Movies) eq_refl).
    discriminate.
Defined.

(* ================================================================== *)
(** ** Further properties of the card options *)
(* ================================================================== *)

(** X10: the shape and the image preferences follow from the image type
    alone, whatever the category: [Banner] gives the banner shape, [Disc]
    the square shape preferring the disc image, [Logo] and [Thumb] the
    backdrop shape preferring the logo and the thumbnail image, and
    [Primary] the automatic shape; at most one preference is set. *)
Theorem getCardOptions_shape (viewType : LibraryTab.t)
        (collectionType : option string) (s : LibraryViewSettings) :
  let o := getCardOptions viewType collectionType s in
  (ImageType s = ImageType.Banner ->
   shape o = "banner"
   /\ preferThumb o = None /\ preferDisc o = None /\ preferLogo o = None)
  /\ (ImageType s = ImageType.Disc ->
      shape o = "square"
      /\ preferThumb o = None /\ preferDisc o = Some true
      /\ preferLogo o = None)
  /\ (ImageType s = ImageType.Logo ->
      shape o = "backdrop"
      /\ preferThumb o = None /\ preferDisc o = None
      /\ preferLogo o = Some true)
  /\ (ImageType s = ImageType.Thumb ->
      shape o = "backdrop"
      /\ preferThumb o = Some true /\ preferDisc o = None
      /\ preferLogo o = None)
  /\ (ImageType s = ImageType.Primary ->
      shape o = "auto"
      /\ preferThumb o = None /\ preferDisc o = None /\ preferLogo o = None).
Proof.
  cbv zeta. unfold getCardOptions.
  destruct (ImageType s); destruct viewType; simpl;
    repeat split; congruence.
Qed.

(** X11: the text overlay is shown exactly when the title is not; the
    text is always centered, the image always covers, the more button is
    always overlaid and the play button never; the context is the
    collection type; the parent title is set, to the title setting, for
    the [Songs], [Albums] and [Episodes] categories and for no other. *)
Theorem getCardOptions_overlays (viewType : LibraryTab.t)
        (collectionType : option string) (s : LibraryViewSettings) :
  let o := getCardOptions viewType collectionType s in
  overlayText o = negb (showTitle o)
  /\ showTitle o = ShowTitle s
  /\ cardLayout o = CardLayout s
  /\ centerText o = true
  /\ coverImage o = true
  /\ overlayMoreButton o = true
  /\ overlayPlayButton o = false
  /\ context o = collectionType
  /\ (viewType = LibraryTab.Songs \/ viewType = LibraryTab.Albums
      \/ viewType = LibraryTab.Episodes ->
      showParentTitle o = Some (ShowTitle s))
  /\ (viewType <> LibraryTab.Songs -> viewType <> LibraryTab.Albums ->
      viewType <> LibraryTab.Episodes ->
      showParentTitle o = None).
Proof.
  cbv zeta. unfold getCardOptions.
  destruct (imageShape (ImageType s)) as [[[sh pt] pd] pl].
  destruct viewType; simpl; repeat split; try congruence;
    intros [H|[H|H]]; discriminate H.
Qed.

(** X12: the options have one line exactly for the [Artists] category, no
    line exactly when the title is hidden outside that category, and two
    lines otherwise; the year is shown exactly when the settings show it
    outside the [Artists] category. *)
Theorem getCardOptions_lines_cases (viewType : LibraryTab.t)
        (collectionType : option string) (s : LibraryViewSettings) :
  let o := getCardOptions viewType collectionType s in
  (lines o = Some 1%Z <-> viewType = LibraryTab.Artists)
  /\ (lines o = Some 0%Z
      <-> ShowTitle s = false /\ viewType <> LibraryTab.Artists)
  /\ (lines o = Some 2%Z
      <-> ShowTitle s = true /\ viewType <> LibraryTab.Artists)
  /\ (showYear o = true
      <-> ShowYear s = true /\ viewType <> LibraryTab.Artists).
Proof.
  cbv zeta. unfold getCardOptions.
  destruct (imageShape (ImageType s)) as [[[sh pt] pd] pl].
  destruct viewType; simpl; destruct (ShowTitle s), (ShowYear s);
    intuition congruence.
Qed.

(** X13: with the default settings of its own category the title is
    shown without overlay text and without the year; there are two
    lines, one for [Artists]; [Networks] gets the backdrop shape
    preferring the thumbnail image and every other category the
    automatic shape with no preference. *)
Theorem getCardOptions_default (viewType : LibraryTab.t)
        (collectionType : option string) :
  let o := getCardOptions viewType collectionType
             (getDefaultLibraryViewSettings viewType) in
  showTitle o = true
  /\ overlayText o = false
  /\ showYear o = false
  /\ cardLayout o = false
  /\ (viewType = LibraryTab.Artists -> lines o = Some 1%Z)
  /\ (viewType <> LibraryTab.Artists -> lines o = Some 2%Z)
  /\ (viewType = LibraryTab.Networks ->
      shape o = "backdrop" /\ preferThumb o = Some true)
  /\ (viewType <> LibraryTab.Networks ->
      shape o = "auto" /\ preferThumb o = None)
  /\ preferDisc o = None
  /\ preferLogo o = None.
Proof.
  cbv zeta. destruct viewType; simpl; repeat split; congruence.
Qed.

(* ================================================================== *)
(** ** Default settings and the values derived from them *)
(* ================================================================== *)

(** X14: the default settings depend on the category only through
    [Songs] and [Networks]; for every category they are sorted by name,
    so [hasSortName] is [true], and their alphabet query holds no
    bound. *)
Theorem getDefaultLibraryViewSettings_derived (viewType : LibraryTab.t) :
  let d := getDefaultLibraryViewSettings viewType in
  (viewType <> LibraryTab.Songs -> viewType <> LibraryTab.Networks ->
   d = getDefaultLibraryViewSettings LibraryTab.Generic)
  /\ hasSortName d = true
  /\ nameStartsWith (getAlphaPickerQuery d) = None
  /\ nameLessThan (getAlphaPickerQuery d) = None.
Proof.
  cbv zeta. destruct viewType; repeat split; congruence.
Qed.

(* ================================================================== *)
(** ** Items markup *)
(* ================================================================== *)

Section ItemsHtmlProperties.

Variable Item : Type.
Variable getListViewHtml : list Item -> option string -> string.
Variable getCardsHtml : list Item -> CardOptions -> string.
Variable translate : string -> string.

Lemma noLength_itemsOf (itemsResult : option (ItemsResult Item)) :
  noLength Item itemsResult = true <-> itemsOf Item itemsResult = [].
Proof.
  unfold noLength, itemsOf.
  destruct (Js.opt_get itemsResult Items) as [[|i l]|]; simpl;
    split; congruence.
Qed.

(** X15: the markup is the builder's output for the items, followed by
    the nothing-here block exactly when there is no item: when the result
    is absent, holds no items property or holds an empty one; in these
    three cases the builder is given the empty list. *)
Theorem getItemsHtml_no_items (viewType : LibraryTab.t)
        (collectionType : option string) (noItemsMessage : string)
        (s : LibraryViewSettings) (itemsResult : option (ItemsResult Item)) :
  let built items :=
    match ViewMode s with
    | ViewMode.ListView => getListViewHtml items collectionType
    | ViewMode.GridView =>
        getCardsHtml items (getCardOptions viewType collectionType s)
    end in
  let html :=
    getItemsHtml Item getListViewHtml getCardsHtml translate
      viewType collectionType noItemsMessage s itemsResult in
  (forall i l, Js.opt_get itemsResult Items = Some (i :: l) ->
               html = built (i :: l))
  /\ (itemsResult = None
      \/ Js.opt_get itemsResult Items = None
      \/ Js.opt_get itemsResult Items = Some [] ->
      html = built []
             ++ noItemsBlock (translate "MessageNothingHere")
                             (translate noItemsMessage)).
Proof.
  cbv zeta. unfold getItemsHtml, noLength, itemsOf. split.
  - intros i l H. now rewrite H.
  - intros [H|[H|H]]; [subst itemsResult|rewrite H|rewrite H]; reflexivity.
Qed.

(** X16: in list view the markup depends neither on the category nor on
    the settings that shape cards. *)
Theorem getItemsHtml_list_view (viewType viewType' : LibraryTab.t)
        (collectionType : option string) (noItemsMessage : string)
        (s s' : LibraryViewSettings)
        (itemsResult : option (ItemsResult Item)) :
  ViewMode s = ViewMode.ListView ->
  ViewMode s' = ViewMode.ListView ->
  getItemsHtml Item getListViewHtml getCardsHtml translate
    viewType collectionType noItemsMessage s itemsResult
  = getItemsHtml Item getListViewHtml getCardsHtml translate
      viewType' collectionType noItemsMessage s' itemsResult.
Proof.
  intros H H'. unfold getItemsHtml. now rewrite H, H'.
Qed.

End ItemsHtmlProperties.

Lemma getItemsHtml_list_view_witness :
  ViewMode (getDefaultLibraryViewSettings LibraryTab.Songs)
  = ViewMode.ListView
  /\ ViewMode (getDefaultLibraryViewSettings LibraryTab.Songs)
     = ViewMode.ListView
  /\ getItemsHtml nat (fun _ _ => "rows") (fun _ _ => "cards") (fun t => t)
       LibraryTab.Songs None "MessageNoItemsAvailable"
       (getDefaultLibraryViewSettings LibraryTab.Songs) None
     = getItemsHtml nat (fun _ _ => "rows") (fun _ _ => "cards") (fun t => t)
         LibraryTab.Artists None "MessageNoItemsAvailable"
         (getDefaultLibraryViewSettings LibraryTab.Songs) None.
Proof.
  split; [reflexivity|]. split; [reflexivity|].
  exact (getItemsHtml_list_view nat (fun _ _ => "rows") (fun _ _ => "cards")
           (fun t => t) LibraryTab.Songs LibraryTab.Artists None
           "MessageNoItemsAvailable"
           (getDefaultLibraryViewSettings LibraryTab.Songs)
           (getDefaultLibraryViewSettings LibraryTab.Songs)
           None eq_refl eq_refl).
Defined.
